(** * Session management of pyr-throw (lib/session.py)

    Shallow embedding of the MongoDB-backed session entity: the Python
    values it stores, the session document collection, the token codec
    (lib/token.py), and the methods of class [Session] as programs in a
    small state-and-exception monad over the in-memory entity and the
    store. *)

From Stdlib Require Import String Ascii ZArith List Lia.
From stdpp Require Import base gmap strings list.

Open Scope Z_scope.
Set Warnings "-register-all".

(* ------------------------------------------------------------------ *)
(** ** Python values *)

(** The values that can sit in the session dict or in a stored document.
    [PTime] is a [datetime] (in whole seconds), [POid] a Mongo ObjectId,
    [PDict] a nested dict. *)
Inductive pyval :=
| PNone
| PBool (b : bool)
| PInt (z : Z)
| PStr (s : string)
| PTime (t : Z)
| POid (o : Z)
| PDict (kvs : list (string * pyval)).

(** Python exceptions raised by the code we model. *)
Inductive exn :=
| KeyError (k : string).

(* ------------------------------------------------------------------ *)
(** ** Token codec (lib/token.py) *)

Module Token.

(** The URL-safe base64 alphabet. *)
Definition alphabet : string :=
  "ABCDEFGHIJKLMNOPQRSTUVWXYZabcdefghijklmnopqrstuvwxyz0123456789-_".

Fixpoint str_mem (c : ascii) (s : string) : bool :=
  match s with
  | EmptyString => false
  | String c' s' => if Ascii.eqb c c' then true else str_mem c s'
  end.

Fixpoint all_in_alphabet (s : string) : bool :=
  match s with
  | EmptyString => true
  | String c s' => str_mem c alphabet && all_in_alphabet s'
  end.

(** Sextet [n mod 64] as a base64url character. *)
Definition b64char (n : N) : ascii :=
  match String.get (N.to_nat (N.land n 63)) alphabet with
  | Some c => c
  | None => "A"%char
  end.

Definition bval (b : Byte.byte) : N := Byte.to_N b.

(** base64url encoding without padding: three bytes give four characters,
    a trailing pair three, a trailing single byte two. *)
Fixpoint b64url (bs : list Byte.byte) : string :=
  match bs with
  | b0 :: b1 :: b2 :: rest =>
      let n := (bval b0 * 65536 + bval b1 * 256 + bval b2)%N in
      String (b64char (N.shiftr n 18)) (String (b64char (N.shiftr n 12))
        (String (b64char (N.shiftr n 6)) (String (b64char n) (b64url rest))))
  | [b0; b1] =>
      let n := (bval b0 * 65536 + bval b1 * 256)%N in
      String (b64char (N.shiftr n 18)) (String (b64char (N.shiftr n 12))
        (String (b64char (N.shiftr n 6)) EmptyString))
  | [b0] =>
      let n := (bval b0 * 65536)%N in
      String (b64char (N.shiftr n 18)) (String (b64char (N.shiftr n 12)) EmptyString)
  | [] => EmptyString
  end.

(** Modelled from the spec: [lib.token.create_token] is not among the
    sources. The spec (4.1, module docstring) asks for 256 random bits in
    the URL-safe base64 alphabet, no padding: 32 bytes of [os.urandom]
    encoded to 43 characters. [urandom i j] is byte [j] of the [i]-th
    draw from the system's random source. *)
Definition create_token_from (urandom : nat -> nat -> Byte.byte) (i : nat) : string :=
  b64url (map (urandom i) (seq 0 32)).

(** Modelled from the spec: [lib.token.valid_token] is not among the
    sources. The spec (4.1) says it checks length and character set
    against the exact output shape of generation: 43 characters, all in
    the base64url alphabet. *)
Definition valid_token (s : string) : bool :=
  (String.length s =? 43)%nat && all_in_alphabet s.

End Token.

Arguments Token.create_token_from : simpl never.

(* ------------------------------------------------------------------ *)
(** ** The session collection *)

(** A stored session document: [_id], [last_update], [session_id],
    [data], and the [expired] field, which only exists once an update
    has [$set] it ([save] never writes it). *)
Record doc := mk_doc {
  doc_oid : Z;
  doc_last_update : Z;
  doc_session_id : string;
  doc_data : gmap string pyval;
  doc_expired : option bool
}.

(** [doc[k]]: subscription of the document (a dict) by a top-level key. *)
Definition doc_getitem (d : doc) (k : string) : exn + pyval :=
  if String.eqb k "_id" then inr (POid (doc_oid d))
  else if String.eqb k "last_update" then inr (PTime (doc_last_update d))
  else if String.eqb k "session_id" then inr (PStr (doc_session_id d))
  else if String.eqb k "data" then inr (PDict (map_to_list (doc_data d)))
  else if String.eqb k "expired" then
    match doc_expired d with Some b => inr (PBool b) | None => inl (KeyError k) end
  else inl (KeyError k).

(** [{'$set': {'expired': True}}] applied to one document. *)
Definition set_expired (d : doc) : doc :=
  mk_doc (doc_oid d) (doc_last_update d) (doc_session_id d) (doc_data d) (Some true).

(** The store operations the session code issues, as a call log. *)
Inductive call :=
| FindOne (sid : string)
| Update
| Insert (sid : string).

(** The process-wide world: the collection in natural order, the clock
    read by [datetime.now()], the number of random draws taken so far,
    and the log of store calls. *)
Record world := mk_world {
  store : list doc;
  clock : Z;
  draws : nat;
  calls : list call
}.

(** [collection.find_one({'session_id': sid})]: first match in natural
    order. *)
Definition find_one_in (sid : string) (ds : list doc) : option doc :=
  List.find (fun d => String.eqb (doc_session_id d) sid) ds.

(** [collection.update(match, {'$set': {'expired': True}})]: pymongo's
    [update] has [multi=False], so only the first matching document is
    changed. *)
Fixpoint update_first (p : doc -> bool) (ds : list doc) : list doc :=
  match ds with
  | [] => []
  | d :: ds' => if p d then set_expired d :: ds' else d :: update_first p ds'
  end.

(** [collection.save(d)] of a dict without ['_id']: an insert, which
    assigns a fresh [_id]. *)
Definition insert_doc (t : Z) (sid : string) (data : gmap string pyval)
    (ds : list doc) : list doc :=
  ds ++ [mk_doc (Z.of_nat (length ds)) t sid data None].

(* ------------------------------------------------------------------ *)
(** ** The session entity *)

(** The attributes of a [Session] object and its dict contents.
    [session_id] is the attribute [rotate] assigns; nothing else reads
    it. *)
Record session := mk_session {
  id : option string;
  mapping : gmap string pyval;
  modified : bool;
  expired : bool;
  last_update : option Z;
  session_id : option string
}.

Definition set_id (v : option string) (e : session) : session :=
  mk_session v (mapping e) (modified e) (expired e) (last_update e) (session_id e).
Definition set_mapping (v : gmap string pyval) (e : session) : session :=
  mk_session (id e) v (modified e) (expired e) (last_update e) (session_id e).
Definition set_modified (v : bool) (e : session) : session :=
  mk_session (id e) (mapping e) v (expired e) (last_update e) (session_id e).
Definition set_expired_flag (v : bool) (e : session) : session :=
  mk_session (id e) (mapping e) (modified e) v (last_update e) (session_id e).
Definition set_last_update (v : option Z) (e : session) : session :=
  mk_session (id e) (mapping e) (modified e) (expired e) v (session_id e).
Definition set_session_id (v : option string) (e : session) : session :=
  mk_session (id e) (mapping e) (modified e) (expired e) (last_update e) v.

(** A freshly allocated [Session]: an empty dict, the class attributes
    [None]; [__init__] assigns [modified] and [expired] first thing. *)
Definition blank : session := mk_session None ∅ false false None None.

(* ------------------------------------------------------------------ *)
(** ** State and exceptions *)

(** A method runs against the entity ([self]) and the world, and either
    returns or raises; the mutations done before a raise stay. *)
Definition PyM (A : Type) : Type := session * world -> (exn + A) * (session * world).

Definition ret {A} (a : A) : PyM A := fun s => (inr a, s).
Definition raise {A} (x : exn) : PyM A := fun s => (inl x, s).
Definition bind {A B} (m : PyM A) (k : A -> PyM B) : PyM B :=
  fun s => match m s with
           | (inl x, s') => (inl x, s')
           | (inr a, s') => k a s'
           end.

Notation "x <- m ;; k" := (bind m (fun x => k))
  (at level 100, m at next level, right associativity).
Notation "m ;;; k" := (bind m (fun _ => k))
  (at level 100, right associativity).

Definition get_self : PyM session := fun s => (inr (fst s), s).
Definition modify_self (f : session -> session) : PyM unit :=
  fun s => (inr tt, (f (fst s), snd s)).
Definition get_world : PyM world := fun s => (inr (snd s), s).
Definition modify_world (f : world -> world) : PyM unit :=
  fun s => (inr tt, (fst s, f (snd s))).

(** [datetime.now()] *)
Definition now : PyM Z := w <- get_world ;; ret (clock w).

Definition log_call (c : call) (w : world) : world :=
  mk_world (store w) (clock w) (draws w) (calls w ++ [c]).

(** The store adapter: [find_one], [update], [save]. *)
Definition store_find_one (sid : string) : PyM (option doc) :=
  modify_world (log_call (FindOne sid)) ;;;
  w <- get_world ;; ret (find_one_in sid (store w)).

Definition store_update (p : doc -> bool) : PyM unit :=
  modify_world (fun w =>
    log_call Update (mk_world (update_first p (store w)) (clock w) (draws w) (calls w))).

Definition store_save (t : Z) (sid : string) (data : gmap string pyval) : PyM unit :=
  modify_world (fun w =>
    log_call (Insert sid) (mk_world (insert_doc t sid data (store w)) (clock w) (draws w) (calls w))).

(** [for k in ks: body k] *)
Fixpoint for_each {A} (ks : list A) (body : A -> PyM unit) : PyM unit :=
  match ks with
  | [] => ret tt
  | k :: ks' => body k ;;; for_each ks' body
  end.

Section SessionMethods.

(** The random source read by [create_token]. *)
Variable urandom : nat -> nat -> Byte.byte.
(** [config['timeout']] *)
Variable timeout : Z.

(** [create_token()]: one fresh draw from the random source. *)
Definition create_token : PyM string :=
  w <- get_world ;;
  modify_world (fun w => mk_world (store w) (clock w) (S (draws w)) (calls w)) ;;;
  ret (Token.create_token_from urandom (draws w)).

(** [Session.reset] *)
Definition reset : PyM unit :=
  t <- create_token ;;
  modify_self (set_id (Some t)) ;;;
  modify_self (set_modified true) ;;;
  n <- now ;;
  modify_self (set_last_update (Some n)) ;;;
  modify_self (set_mapping ∅).

(** [Session.__setitem__] *)
Definition setitem (k : string) (v : pyval) : PyM unit :=
  modify_self (set_modified true) ;;;
  modify_self (fun e => set_mapping (<[k:=v]> (mapping e)) e).

(** [Session.__delitem__]: [dict.__delitem__] raises on a missing key,
    after [modified] has been set. *)
Definition delitem (k : string) : PyM unit :=
  modify_self (set_modified true) ;;;
  e <- get_self ;;
  match mapping e !! k with
  | Some _ => modify_self (set_mapping (delete k (mapping e)))
  | None => raise (KeyError k)
  end.

(** Inherited [dict.__getitem__] and [dict.get]. *)
Definition getitem (k : string) : PyM pyval :=
  e <- get_self ;;
  match mapping e !! k with
  | Some v => ret v
  | None => raise (KeyError k)
  end.

Definition get (k : string) (default : pyval) : PyM pyval :=
  e <- get_self ;;
  ret (match mapping e !! k with Some v => v | None => default end).

(** The query [{'session_id': self.id}]. *)
Definition id_matches (v : option string) (d : doc) : bool :=
  match v with
  | Some i => String.eqb (doc_session_id d) i
  | None => false
  end.

(** [Session.expire] *)
Definition expire : PyM unit :=
  e <- get_self ;;
  store_update (id_matches (id e)) ;;;
  modify_self (set_expired_flag true).

(** [Session.expire_set]: [match] is a Mongo query, a predicate on
    documents. *)
Definition expire_set (match_ : doc -> bool) : PyM unit :=
  store_update match_ ;;;
  modify_self (set_expired_flag true).

(** [Session.rotate]: the new token goes to [self.session_id]. *)
Definition rotate : PyM unit :=
  expire ;;;
  t <- create_token ;;
  modify_self (set_session_id (Some t)) ;;;
  modify_self (set_modified true) ;;;
  modify_self (set_expired_flag false).

(** [Session.save] *)
Definition save : PyM unit :=
  e <- get_self ;;
  if expired e then ret tt
  else
    n <- now ;;
    modify_self (set_last_update (Some n)) ;;;
    e' <- get_self ;;
    store_save n (match id e' with Some i => i | None => "" end) (mapping e').

(** Python truthiness of a value. *)
Definition truthy (v : pyval) : bool :=
  match v with
  | PNone => false
  | PBool b => b
  | PInt z => negb (z =? 0)
  | PStr s => negb (String.eqb s "")
  | PTime _ | POid _ => true
  | PDict kvs => negb (Nat.eqb (List.length kvs) 0)
  end.

(** [Session.__init__], from the cookie value
    [request.str_cookies.get(config['name'], None)]. *)
Definition init (cookie : option string) : PyM unit :=
  modify_self (set_modified false) ;;;
  modify_self (set_expired_flag false) ;;;
  modify_self (set_id cookie) ;;;
  match cookie with
  | None => reset
  | Some c =>
    if String.eqb c "" then reset
    else if negb (Token.valid_token c) then reset
    else
      od <- store_find_one c ;;
      match od with
      | None => reset
      | Some d =>
        modify_self (set_last_update (Some (doc_last_update d))) ;;;
        match doc_getitem d "expired" with
        | inl x => raise x
        | inr ex =>
          if truthy ex then reset
          else
            n <- now ;;
            if n - doc_last_update d >? timeout then expire ;;; reset
            else
              for_each (map fst (map_to_list (doc_data d))) (fun k =>
                match doc_getitem d k with
                | inl x => raise x
                | inr v => setitem k v
                end) ;;;
              modify_self (set_modified false)
        end
      end
  end.

(** [Session(request)]: a fresh object run through [__init__]; if
    [__init__] raises, no entity is handed out. *)
Definition construct (cookie : option string) (w : world) : (exn + session) * world :=
  match init cookie (blank, w) with
  | (inl x, (_, w')) => (inl x, w')
  | (inr _, (e, w')) => (inr e, w')
  end.

End SessionMethods.

(** Methods [Session] inherits from [dict] unchanged: they act on the
    dict contents directly and never go through [__setitem__] or
    [__delitem__]. *)
Definition dict_update (kvs : list (string * pyval)) : PyM unit :=
  modify_self (fun e =>
    set_mapping (fold_left (fun m kv => <[kv.1 := kv.2]> m) kvs (mapping e)) e).

Definition dict_pop (k : string) : PyM pyval :=
  e <- get_self ;;
  match mapping e !! k with
  | Some v => modify_self (set_mapping (delete k (mapping e))) ;;; ret v
  | None => raise (KeyError k)
  end.

Definition dict_popitem : PyM (string * pyval) :=
  e <- get_self ;;
  match map_to_list (mapping e) with
  | (k, v) :: _ => modify_self (set_mapping (delete k (mapping e))) ;;; ret (k, v)
  | [] => raise (KeyError "popitem(): dictionary is empty")
  end.

Definition dict_setdefault (k : string) (v : pyval) : PyM pyval :=
  e <- get_self ;;
  match mapping e !! k with
  | Some v' => ret v'
  | None => modify_self (set_mapping (<[k := v]> (mapping e))) ;;; ret v
  end.

Definition dict_clear : PyM unit := modify_self (set_mapping ∅).

(* ------------------------------------------------------------------ *)
(** ** Request hooks *)

(** The entries of the module-level [config] dict that the hooks read, as
    [init(settings)] fills them: [name] is the cookie name and [timeout]
    the idle timeout in seconds (an int: [app.py] sets [10*60]); [domain],
    [path] and [secure_only] are passed to [set_cookie] as they are. *)
Record config := mk_config {
  cfg_name : string;
  cfg_timeout : Z;
  cfg_domain : pyval;
  cfg_path : pyval;
  cfg_secure_only : pyval
}.

(** The arguments of [response.set_cookie]. *)
Record cookie := mk_cookie {
  c_name : string;
  c_value : option string;
  c_path : pyval;
  c_domain : pyval;
  c_secure : pyval;
  c_httponly : bool;
  c_overwrite : bool
}.

(** [on_request]: [Session(event.request)], the cookie read from
    [request.str_cookies] under [config['name']]. *)
Definition on_request (urandom : nat -> nat -> Byte.byte) (cfg : config)
    (cookies : gmap string string) (w : world) : (exn + session) * world :=
  construct urandom (cfg_timeout cfg) (cookies !! cfg_name cfg) w.

(** [on_response]: [save()], then the cookie carrying [session.id]. *)
Definition on_response (cfg : config) : PyM cookie :=
  save ;;;
  e <- get_self ;;
  ret (mk_cookie (cfg_name cfg) (id e) (cfg_path cfg) (cfg_domain cfg)
         (cfg_secure_only cfg) true true).

(** One request: [on_request], the view's work on [request.session], then
    [on_response]. *)
Definition request_cycle (urandom : nat -> nat -> Byte.byte) (cfg : config)
    (cookies : gmap string string) (handler : PyM unit) (w : world)
    : (exn + cookie) * world :=
  match on_request urandom cfg cookies w with
  | (inl x, w') => (inl x, w')
  | (inr e, w') =>
      let '(r, (_, w'')) := (handler ;;; on_response cfg) (e, w') in (r, w'')
  end.

(** The document [save] appends for an entity at time [t]. *)
Definition saved_doc (ds : list doc) (t : Z) (e : session) : doc :=
  mk_doc (Z.of_nat (length ds)) t (match id e with Some i => i | None => "" end)
    (mapping e) None.

(** What the load loop puts in the mapping for a key of [doc['data']]. *)
Definition loaded_value (d : doc) (k : string) : option pyval :=
  match doc_data d !! k with
  | Some _ => match doc_getitem d k with inr v => Some v | inl _ => None end
  | None => None
  end.

(** The mapping the load loop builds from the keys [ks] when every
    [doc[k]] succeeds. *)
Definition load_keys (d : doc) (ks : list string) (m : gmap string pyval) : gmap string pyval :=
  fold_left (fun m k => match doc_getitem d k with inr v => <[k := v]> m | inl _ => m end) ks m.

(** The body of the load loop, [self[k] = doc[k]]. *)
Definition load_body (d : doc) (k : string) : PyM unit :=
  match doc_getitem d k with
  | inl x => raise x
  | inr v => setitem k v
  end.

(** The configuration [app.py] passes to [init]. *)
Definition app_cfg : config := mk_config "session" 600 (PStr "localhost") (PStr "/") (PBool false).

(** The world after one [create_token] draw. *)
Definition drawn (w : world) : world :=
  mk_world (store w) (clock w) (S (draws w)) (calls w).

(** The entity [reset] leaves behind on a freshly initialised object. *)
Definition fresh_entity (urandom : nat -> nat -> Byte.byte) (w : world) : session :=
  mk_session (Some (Token.create_token_from urandom (draws w))) ∅ true false
    (Some (clock w)) None.

(** How one document may change under [update(match, {'$set':
    {'expired': True}})]: not at all, or, if it matches, by gaining
    [expired = true]. *)
Definition expire_step (P : doc -> bool) (d d' : doc) : Prop :=
  d' = d \/ (P d = true /\ d' = set_expired d).

(* ------------------------------------------------------------------ *)
(** ** Concrete runs *)

Definition ur (i j : nat) : Byte.byte :=
  match Byte.of_nat ((i * 7 + j * 13) mod 256) with Some b => b | None => Byte.x00 end.

Definition w0 : world := mk_world [] 1000 0 [].

Definition tok0 : string := Token.create_token_from ur 0.

(** The world of the next request, at time [t]. *)
Definition later (w : world) (t : Z) : world := mk_world (store w) t (draws w) (calls w).

(** A new session given ["user"] = 5, then saved at the end of the request. *)
Definition rt_saved : session * world :=
  snd ((setitem "user" (PInt 5) ;;; save) (fresh_entity ur w0, drawn w0)).

(** A new session rotated, then saved at the end of the request. *)
Definition rot_saved : session * world :=
  snd ((rotate ur ;;; save) (fresh_entity ur w0, drawn w0)).

(** A stored, unexpired document last updated at time 0, seen at 1000. *)
Definition idle_doc : doc := mk_doc 0 0 tok0 ∅ (Some false).
Definition idle_world : world := mk_world [idle_doc] 1000 1 [].

(** The query [{'data.user_id': 55}]. *)
Definition user55 (d : doc) : bool :=
  match doc_data d !! "user_id" with Some (PInt z) => z =? 55 | _ => false end.

Definition other_doc (o : Z) (i : nat) : doc :=
  mk_doc o 900 (Token.create_token_from ur i) {[ "user_id" := PInt 55 ]} None.
Definition grp_world : world := mk_world [other_doc 0 5; other_doc 1 6] 1000 7 [].

(** A loaded, unmodified session whose id has no document. *)
Definition e_clean : session := mk_session (Some tok0) ∅ false false (Some 900) None.

(** A stored document whose [data] has a key that is also a top-level
    field name. *)
Definition odd_doc : doc := mk_doc 0 950 tok0 {[ "_id" := PInt 7 ]} (Some false).


(* ------------------------------------------------------------------ *)
(** ** Token codec: every generated token is well-formed *)

Module TokenFacts.
Import Token.

Lemma land63_lt (n : N) : (N.to_nat (N.land n 63) < 64)%nat.
Proof.
  assert (Hl : (N.land n 63 < 64)%N).
  { change 63%N with (N.ones 6). rewrite N.land_ones.
    apply N.mod_lt. discriminate. }
  lia.
Qed.

Lemma b64char_mem (n : N) : str_mem (b64char n) alphabet = true.
Proof.
  unfold b64char. pose proof (land63_lt n) as Hlt.
  generalize dependent (N.to_nat (N.land n 63)). intros m Hm.
  do 64 (destruct m as [|m]; [reflexivity|]). lia.
Qed.

Lemma all_in_alphabet_cons (c : ascii) (s : string) :
  all_in_alphabet (String c s) = str_mem c alphabet && all_in_alphabet s.
Proof. reflexivity. Qed.

Lemma b64url_all_in (bs : list Byte.byte) : all_in_alphabet (b64url bs) = true.
Proof.
  induction bs as [bs IH] using (induction_ltof1 _ (@List.length _)).
  destruct bs as [|b0 [|b1 [|b2 rest]]]; cbn [b64url];
    rewrite ?all_in_alphabet_cons, ?b64char_mem; try reflexivity.
  apply IH. unfold ltof. simpl. lia.
Qed.

Lemma b64url_length (k : nat) (bs : list Byte.byte) :
  List.length bs = (3 * k + 2)%nat -> String.length (b64url bs) = (4 * k + 3)%nat.
Proof.
  revert bs. induction k as [|k IH]; intros bs Hlen.
  - destruct bs as [|b0 [|b1 [|b2 rest]]]; simpl in *; lia.
  - destruct bs as [|b0 [|b1 [|b2 rest]]]; simpl in *; try lia.
    rewrite (IH rest) by lia. lia.
Qed.

Lemma create_token_valid (urandom : nat -> nat -> Byte.byte) (i : nat) :
  valid_token (create_token_from urandom i) = true.
Proof.
  unfold valid_token, create_token_from.
  rewrite (b64url_length 10) by (rewrite length_map, length_seq; reflexivity).
  rewrite b64url_all_in. reflexivity.
Qed.

End TokenFacts.

(* ------------------------------------------------------------------ *)
(** ** Mapping operations and [save] *)

(** C6: [save] on an entity whose [expired] flag is true returns at once:
    neither the entity nor the store (nor the call log) changes, so no
    document is written or overwritten. *)
Theorem save_expired_noop (e : session) (w : world) :
  expired e = true -> save (e, w) = (inr tt, (e, w)).
Proof. intros H. unfold save, bind, get_self. simpl. rewrite H. reflexivity. Qed.

(** C7: [session[k] = v] and [del session[k]] set [modified] to true
    whatever the previous contents (a [del] of a missing key raises, with
    [modified] already set); [session[k]] and [session.get(k, d)] leave
    the entity and the world as they were. *)
Theorem mutation_marks_dirty (k : string) (v : pyval) (e : session) (w : world) :
  modified (fst (snd (setitem k v (e, w)))) = true /\
  modified (fst (snd (delitem k (e, w)))) = true /\
  snd (getitem k (e, w)) = (e, w) /\
  snd (get k v (e, w)) = (e, w).
Proof.
  unfold setitem, delitem, getitem, get, bind, get_self, modify_self, ret, raise.
  simpl. repeat split; destruct (mapping e !! k); reflexivity.
Qed.

(* ------------------------------------------------------------------ *)
(** ** Construction *)

Lemma construct_none (urandom : nat -> nat -> Byte.byte) (timeout : Z) (w : world) :
  construct urandom timeout None w = (inr (fresh_entity urandom w), drawn w).
Proof. reflexivity. Qed.

(** C9: with no cookie, construction hands out an entity whose id is a
    fresh token, the next draw from the random source (the draw counter
    advances by one), that passes the well-formedness check, with an empty
    mapping, [modified = true] and [last_update] the current time; the
    store is untouched and no store call is issued. *)
Theorem no_cookie_new (urandom : nat -> nat -> Byte.byte) (timeout : Z) (w : world) :
  exists e t w',
    construct urandom timeout None w = (inr e, w') /\
    id e = Some t /\ t = Token.create_token_from urandom (draws w) /\
    draws w' = S (draws w) /\ Token.valid_token t = true /\
    mapping e = ∅ /\ modified e = true /\ last_update e = Some (clock w) /\
    store w' = store w /\ calls w' = calls w.
Proof.
  exists (fresh_entity urandom w), (Token.create_token_from urandom (draws w)), (drawn w).
  rewrite construct_none. repeat split; try reflexivity.
  apply TokenFacts.create_token_valid.
Qed.

(** C8: a cookie value that fails [valid_token] is handled exactly as an
    absent cookie (the same entity and the same world come out) and no
    store call, in particular no [find_one], is made. *)
Theorem malformed_token_no_lookup (urandom : nat -> nat -> Byte.byte) (timeout : Z)
    (c : string) (w : world) :
  Token.valid_token c = false ->
  construct urandom timeout (Some c) w = construct urandom timeout None w /\
  calls (snd (construct urandom timeout (Some c) w)) = calls w.
Proof.
  intros Hbad.
  assert (Hrun : construct urandom timeout (Some c) w = (inr (fresh_entity urandom w), drawn w)).
  { unfold construct, init. cbn [bind modify_self fst snd].
    destruct (String.eqb c "").
    - reflexivity.
    - rewrite Hbad. reflexivity. }
  rewrite Hrun, construct_none. split; reflexivity.
Qed.

Lemma malformed_token_no_lookup_witness :
  Token.valid_token "not-a-token!" = false /\
  construct ur 600 (Some "not-a-token!") w0 = construct ur 600 None w0 /\
  calls (snd (construct ur 600 (Some "not-a-token!") w0)) = calls w0.
Proof.
  split; [reflexivity|].
  apply (malformed_token_no_lookup ur 600 "not-a-token!" w0). reflexivity.
Defined.

(* ------------------------------------------------------------------ *)
(** ** Revocation and rotation *)

Lemma update_first_step (P : doc -> bool) (ds : list doc) :
  Forall2 (expire_step P) ds (update_first P ds).
Proof.
  induction ds as [|d ds IH]; simpl.
  - constructor.
  - destruct (P d) eqn:HP.
    + constructor.
      * right. split; [exact HP | reflexivity].
      * clear IH. induction ds; constructor; [left; reflexivity | assumption].
    + constructor; [left; reflexivity | exact IH].
Qed.

(** A document already revoked stays revoked under an update, keeping
    its position and its [session_id]. *)
Lemma update_first_keeps_revoked (P : doc -> bool) (ds : list doc) (i : nat) (d : doc) :
  ds !! i = Some d -> doc_expired d = Some true ->
  exists d', update_first P ds !! i = Some d' /\ doc_expired d' = Some true /\
             doc_session_id d' = doc_session_id d.
Proof.
  intros Hi He.
  destruct (Forall2_lookup_l _ _ _ _ _ (update_first_step P ds) Hi) as [d' [Hd' Hstep]].
  exists d'. split; [exact Hd'|].
  destruct Hstep as [-> | [_ ->]]; split; try reflexivity; exact He.
Qed.

(** An insert only appends. *)
Lemma insert_doc_keeps (t : Z) (sid : string) (data : gmap string pyval)
    (ds : list doc) (i : nat) (d : doc) :
  ds !! i = Some d -> insert_doc t sid data ds !! i = Some d.
Proof. intros Hi. unfold insert_doc. by apply lookup_app_l_Some. Qed.

(** C5 (as amended): [expire_set(P)] leaves every document that does not
    match [P] as it was, changes a matching one only by setting
    [expired = true], and sets the entity's own [expired] flag to true
    unconditionally, changing nothing else on the entity. *)
Theorem expire_set_spec (P : doc -> bool) (e : session) (w : world) :
  let '(r, (e', w')) := expire_set P (e, w) in
  r = inr tt /\ e' = set_expired_flag true e /\ expired e' = true /\
  Forall2 (expire_step P) (store w) (store w').
Proof.
  simpl. repeat split. apply update_first_step.
Qed.

(** C2: what [rotate] does. The current id's first document is marked
    expired, the fresh token is stored in the [session_id] attribute,
    [modified] becomes true and [expired] false, the mapping is kept, and
    the entity's [id], which [save] and the outgoing cookie use, is left
    unchanged. *)
Theorem rotate_keeps_id (urandom : nat -> nat -> Byte.byte) (e : session) (w : world) :
  let '(r, (e', w')) := rotate urandom (e, w) in
  r = inr tt /\ id e' = id e /\
  session_id e' = Some (Token.create_token_from urandom (draws w)) /\
  mapping e' = mapping e /\ modified e' = true /\ expired e' = false /\
  store w' = update_first (id_matches (id e)) (store w).
Proof. simpl. repeat split. Qed.

(* ------------------------------------------------------------------ *)
(** ** Inherited dict methods *)

(** C10 (as amended): [update], [pop], [popitem], [setdefault] and
    [clear] leave [modified] as it was; [save] does not look at
    [modified]: on an entity that is not expired it inserts a document
    carrying the whole current mapping, so those writes reach the store
    all the same. *)
Theorem dict_methods_keep_modified (kvs : list (string * pyval)) (k : string) (v : pyval)
    (e : session) (w : world) :
  modified (fst (snd (dict_update kvs (e, w)))) = modified e /\
  modified (fst (snd (dict_pop k (e, w)))) = modified e /\
  modified (fst (snd (dict_popitem (e, w)))) = modified e /\
  modified (fst (snd (dict_setdefault k v (e, w)))) = modified e /\
  modified (fst (snd (dict_clear (e, w)))) = modified e /\
  store (snd (snd (save (e, w)))) =
    (if expired e then store w
     else insert_doc (clock w) (match id e with Some i => i | None => "" end)
            (mapping e) (store w)).
Proof.
  unfold dict_update, dict_pop, dict_popitem, dict_setdefault, dict_clear, save,
    bind, get_self, modify_self, ret, raise.
  simpl. repeat split.
  - destruct (mapping e !! k); reflexivity.
  - destruct (map_to_list (mapping e)) as [|[k' v'] l]; reflexivity.
  - destruct (mapping e !! k); reflexivity.
  - destruct (expired e); reflexivity.
Qed.

(* ------------------------------------------------------------------ *)
(** ** Concrete runs of the entity *)

(** Loading a document that has no [expired] field raises [KeyError]:
    [doc['expired']] is read before anything else is decided. *)
Lemma load_without_expired_raises (urandom : nat -> nat -> Byte.byte) (timeout : Z)
    (t : string) (w : world) (d : doc) :
  Token.valid_token t = true -> find_one_in t (store w) = Some d -> doc_expired d = None ->
  fst (construct urandom timeout (Some t) w) = inl (KeyError "expired").
Proof.
  intros Hv Hf He.
  assert (Hne : String.eqb t "" = false).
  { destruct t; [discriminate | reflexivity]. }
  unfold construct, init. cbn [bind modify_self fst snd].
  rewrite Hne, Hv. cbn [negb].
  cbn [bind store_find_one modify_world get_world ret log_call fst snd store].
  rewrite Hf. cbn [bind modify_self fst snd].
  unfold doc_getitem. simpl. rewrite He. reflexivity.
Qed.

Lemma load_without_expired_raises_witness :
  Token.valid_token tok0 = true /\ find_one_in tok0 (store (later (snd rt_saved) 1100)) =
    Some (mk_doc 0 1000 tok0 {[ "user" := PInt 5 ]} None) /\
  fst (construct ur 600 (Some tok0) (later (snd rt_saved) 1100)) = inl (KeyError "expired").
Proof.
  split; [reflexivity|]. split; [reflexivity|].
  apply (load_without_expired_raises ur 600 tok0 (later (snd rt_saved) 1100)
           (mk_doc 0 1000 tok0 {[ "user" := PInt 5 ]} None)); reflexivity.
Defined.

(** C1: the round trip breaks. A new session given ["user"] = 5 is saved
    as a document without an [expired] field; the next request presenting
    its id, 100 seconds later, raises [KeyError('expired')] instead of
    loading the mapping. *)
Lemma roundtrip_raises :
  mapping (fst rt_saved) = {[ "user" := PInt 5 ]} /\
  id (fst rt_saved) = Some tok0 /\
  store (snd rt_saved) = [mk_doc 0 1000 tok0 {[ "user" := PInt 5 ]} None] /\
  fst (construct ur 600 (Some tok0) (later (snd rt_saved) 1100)) = inl (KeyError "expired").
Proof. repeat split; vm_compute; reflexivity. Qed.

(** Even a document that carries [expired = False] does not load: the
    loop reads [doc[k]], a top-level field of the document, instead of
    [doc['data'][k]]. *)
Lemma load_reads_top_level_field :
  fst (construct ur 600 (Some tok0)
         (mk_world [mk_doc 0 1000 tok0 {[ "user" := PInt 5 ]} (Some false)] 1100 1 [])) =
  inl (KeyError "user").
Proof. vm_compute. reflexivity. Qed.

(** C3: revocation of an id that has no document yet does not last.
    [rotate] on a new session expires nothing in the store, keeps the id,
    and [save] then stores that id as a live document; the next request
    presenting it is not given a new session (it raises [KeyError]). *)
Lemma revoked_id_reused_after_rotate :
  id (fst rot_saved) = Some tok0 /\
  calls (snd rot_saved) = [Update; Insert tok0] /\
  store (snd rot_saved) = [mk_doc 0 1000 tok0 ∅ None] /\
  fst (construct ur 600 (Some tok0) (later (snd rot_saved) 1100)) = inl (KeyError "expired").
Proof. repeat split; vm_compute; reflexivity. Qed.

(** C4: after an idle timeout the new entity is still flagged expired:
    [expire] set [self.expired] and [reset] does not clear it. Its [save]
    then does nothing, so the new id is never stored. *)
Lemma idle_timeout_entity_expired :
  match construct ur 600 (Some tok0) idle_world with
  | (inr e, w') =>
      expired e = true /\ id e = Some (Token.create_token_from ur 1) /\
      store w' = [set_expired idle_doc] /\ save (e, w') = (inr tt, (e, w'))
  | _ => False
  end.
Proof. vm_compute. repeat split. Qed.

(** C5: the entity's flag is set although its own session does not match
    the query (its id has no document and its mapping no [user_id]). *)
Lemma expire_set_flag_unconditional :
  expired e_clean = false /\ mapping e_clean !! "user_id" = None /\
  find_one_in tok0 (store grp_world) = None /\
  expired (fst (snd (expire_set user55 (e_clean, grp_world)))) = true.
Proof. repeat split; vm_compute; reflexivity. Qed.

(** [update] has [multi=False]: of two documents matching the query only
    the first is expired. *)
Lemma expire_set_first_match_only :
  store (snd (snd (expire_set user55 (e_clean, grp_world)))) =
    [set_expired (other_doc 0 5); other_doc 1 6].
Proof. vm_compute. reflexivity. Qed.

Lemma save_expired_noop_witness :
  expired (set_expired_flag true e_clean) = true /\
  save (set_expired_flag true e_clean, idle_world) =
    (inr tt, (set_expired_flag true e_clean, idle_world)).
Proof. split; [reflexivity | apply save_expired_noop; reflexivity]. Defined.

(** C10: a write through [update] on an unmodified session leaves
    [modified] false, and [save] stores it all the same. *)
Lemma dict_update_then_save_persists :
  modified (fst (snd (dict_update [("k", PInt 1)] (e_clean, w0)))) = false /\
  store (snd (snd (save (snd (dict_update [("k", PInt 1)] (e_clean, w0)))))) =
    [mk_doc 0 1000 tok0 {[ "k" := PInt 1 ]} None].
Proof. split; vm_compute; reflexivity. Qed.

(* ------------------------------------------------------------------ *)
(** ** Further properties of the session methods *)

(** [reset] draws a fresh token, which passes [valid_token], empties the
    mapping, sets [modified] and [last_update]; it leaves [expired] and the
    store, and the store call log, as they were. *)
Theorem reset_spec (urandom : nat -> nat -> Byte.byte) (e : session) (w : world) :
  let '(r, (e', w')) := reset urandom (e, w) in
  r = inr tt /\ id e' = Some (Token.create_token_from urandom (draws w)) /\
  Token.valid_token (Token.create_token_from urandom (draws w)) = true /\
  mapping e' = ∅ /\ modified e' = true /\ last_update e' = Some (clock w) /\
  expired e' = expired e /\ store w' = store w /\ calls w' = calls w.
Proof.
  simpl. repeat split. apply TokenFacts.create_token_valid.
Qed.

(** [session[k] = v] then [session[k']]: the value just written for
    [k' = k], the previous answer for any other key. *)
Theorem setitem_getitem (k : string) (v : pyval) (k' : string) (e : session) (w : world) :
  fst (getitem k' (snd (setitem k v (e, w)))) =
    (if String.eqb k' k then inr v else fst (getitem k' (e, w))).
Proof.
  unfold getitem, setitem, bind, get_self, modify_self, ret, raise. simpl.
  destruct (String.eqb_spec k' k) as [-> | Hne].
  - rewrite lookup_insert_eq. reflexivity.
  - rewrite lookup_insert_ne by congruence. destruct (mapping e !! k'); reflexivity.
Qed.

(** [del session[k]] removes [k]: afterwards [session[k]] raises
    [KeyError(k)]. The [del] itself raises [KeyError(k)] exactly when [k]
    was absent, and then the mapping is left as it was. *)
Theorem delitem_removes (k : string) (e : session) (w : world) :
  fst (getitem k (snd (delitem k (e, w)))) = inl (KeyError k) /\
  mapping (fst (snd (delitem k (e, w)))) = delete k (mapping e) /\
  (fst (delitem k (e, w)) = inl (KeyError k) <-> mapping e !! k = None).
Proof.
  unfold getitem, delitem, bind, get_self, modify_self, ret, raise. simpl.
  destruct (mapping e !! k) as [v|] eqn:Hk; simpl.
  - rewrite lookup_delete_eq. repeat split; try discriminate.
  - rewrite Hk, delete_id by exact Hk. repeat split.
Qed.

(** [expire] keeps the mapping, the id and [modified] (the docstring:
    "the data is retained within the session object"), sets [expired],
    and in the store can only mark a document whose [session_id] is the
    entity's id. *)
Theorem expire_spec (e : session) (w : world) :
  let '(r, (e', w')) := expire (e, w) in
  r = inr tt /\ e' = set_expired_flag true e /\
  Forall2 (expire_step (id_matches (id e))) (store w) (store w').
Proof. simpl. repeat split. apply update_first_step. Qed.

Lemma find_snoc (f : doc -> bool) (l : list doc) (x : doc) :
  List.find f (l ++ [x]) =
    match List.find f l with Some y => Some y | None => if f x then Some x else None end.
Proof.
  induction l as [|y l IH]; simpl.
  - destruct (f x); reflexivity.
  - destruct (f y); [reflexivity | exact IH].
Qed.

(** [save] inserts, it does not upsert. What [find_one] returns for the
    entity's id afterwards is the document it returned before, if there
    was one (a later save is never seen by a later load); otherwise the
    new document, carrying the mapping, the current time and no
    [expired] field. *)
Theorem save_find_one (e : session) (w : world) (i : string) :
  id e = Some i -> expired e = false ->
  find_one_in i (store (snd (snd (save (e, w))))) =
    match find_one_in i (store w) with
    | Some d => Some d
    | None => Some (mk_doc (Z.of_nat (length (store w))) (clock w) i (mapping e) None)
    end.
Proof.
  intros Hi He. unfold save, bind, get_self. simpl. rewrite He. simpl.
  rewrite Hi. unfold insert_doc, find_one_in. rewrite find_snoc.
  destruct (List.find _ (store w)); [reflexivity|].
  simpl. rewrite String.eqb_refl. reflexivity.
Qed.

Lemma save_find_one_witness :
  id e_clean = Some tok0 /\ expired e_clean = false /\
  find_one_in tok0 (store (snd (snd (save (e_clean, idle_world))))) = Some idle_doc.
Proof.
  split; [reflexivity|]. split; [reflexivity|].
  rewrite (save_find_one e_clean idle_world tok0) by reflexivity. reflexivity.
Defined.

(* ------------------------------------------------------------------ *)
(** ** The paths of [__init__] *)

(** Run [__init__] up to the point where the looked-up document is
    examined. *)
Ltac enter_doc :=
  match goal with
  | Hv : Token.valid_token ?t = true, Hf : find_one_in ?t (store ?w) = _ |- _ =>
      let Hne := fresh "Hne" in
      assert (Hne : String.eqb t "" = false) by (destruct t; [discriminate | reflexivity]);
      unfold construct, init; cbn [bind modify_self fst snd];
      rewrite Hne, Hv; cbn [negb];
      cbn [bind store_find_one modify_world get_world ret log_call fst snd store];
      rewrite Hf; cbn [bind modify_self fst snd]
  end.

(** A well-formed token with no document in the store gives the same new
    entity as no cookie at all; the only store call is the lookup. *)
Theorem construct_not_found (urandom : nat -> nat -> Byte.byte) (timeout : Z)
    (t : string) (w : world) :
  Token.valid_token t = true -> find_one_in t (store w) = None ->
  construct urandom timeout (Some t) w =
    (inr (fresh_entity urandom w), drawn (log_call (FindOne t) w)).
Proof. intros Hv Hf. enter_doc. reflexivity. Qed.

Lemma construct_not_found_witness :
  Token.valid_token tok0 = true /\ find_one_in tok0 (store w0) = None /\
  construct ur 600 (Some tok0) w0 = (inr (fresh_entity ur w0), drawn (log_call (FindOne tok0) w0)).
Proof.
  split; [reflexivity|]. split; [reflexivity|].
  apply construct_not_found; reflexivity.
Defined.

(** A token whose first document is flagged expired gives a new entity
    as with no cookie (the [last_update] read from the document is
    overwritten by [reset]); the store is not written. *)
Theorem construct_revoked (urandom : nat -> nat -> Byte.byte) (timeout : Z)
    (t : string) (w : world) (d : doc) :
  Token.valid_token t = true -> find_one_in t (store w) = Some d ->
  doc_expired d = Some true ->
  construct urandom timeout (Some t) w =
    (inr (fresh_entity urandom w), drawn (log_call (FindOne t) w)).
Proof.
  intros Hv Hf He. enter_doc.
  unfold doc_getitem at 1. simpl. rewrite He. reflexivity.
Qed.

Lemma construct_revoked_witness :
  Token.valid_token tok0 = true /\
  find_one_in tok0 (store (mk_world [set_expired idle_doc] 1000 1 [])) = Some (set_expired idle_doc) /\
  doc_expired (set_expired idle_doc) = Some true /\
  construct ur 600 (Some tok0) (mk_world [set_expired idle_doc] 1000 1 []) =
    (inr (fresh_entity ur (mk_world [set_expired idle_doc] 1000 1 [])),
     drawn (log_call (FindOne tok0) (mk_world [set_expired idle_doc] 1000 1 []))).
Proof.
  split; [reflexivity|]. split; [reflexivity|]. split; [reflexivity|].
  apply (construct_revoked ur 600 tok0 _ (set_expired idle_doc)); reflexivity.
Defined.

Lemma update_first_find (t : string) (ds : list doc) (d : doc) :
  find_one_in t ds = Some d ->
  find_one_in t (update_first (id_matches (Some t)) ds) = Some (set_expired d).
Proof.
  unfold find_one_in. induction ds as [|d0 ds IH]; simpl; [discriminate|].
  destruct (String.eqb (doc_session_id d0) t) eqn:Hd0.
  - intros [= ->]. simpl. rewrite Hd0. reflexivity.
  - intros Hf. simpl. rewrite Hd0. exact (IH Hf).
Qed.

(** An unexpired document idle for longer than the timeout: [__init__]
    marks it expired in the store (the lookup now finds it revoked) and
    hands out a new entity that is still flagged expired. *)
Theorem construct_idle (urandom : nat -> nat -> Byte.byte) (timeout : Z)
    (t : string) (w : world) (d : doc) :
  Token.valid_token t = true -> find_one_in t (store w) = Some d ->
  doc_expired d = Some false -> clock w - doc_last_update d > timeout ->
  exists w',
    construct urandom timeout (Some t) w =
      (inr (set_expired_flag true (fresh_entity urandom w)), w') /\
    store w' = update_first (id_matches (Some t)) (store w) /\
    find_one_in t (store w') = Some (set_expired d) /\
    calls w' = calls w ++ [FindOne t; Update].
Proof.
  intros Hv Hf He Hage. enter_doc.
  unfold doc_getitem at 1. simpl. rewrite He. cbn [truthy].
  unfold now. cbn [bind get_world ret fst snd clock log_call].
  destruct (Z.gtb_spec (clock w - doc_last_update d) timeout); [|lia].
  eexists. split; [reflexivity|]. cbn. split; [reflexivity|]. split.
  - apply update_first_find. exact Hf.
  - rewrite <- app_assoc. reflexivity.
Qed.

Lemma construct_idle_witness :
  Token.valid_token tok0 = true /\ find_one_in tok0 (store idle_world) = Some idle_doc /\
  doc_expired idle_doc = Some false /\ clock idle_world - doc_last_update idle_doc > 600 /\
  exists w', construct ur 600 (Some tok0) idle_world =
      (inr (set_expired_flag true (fresh_entity ur idle_world)), w') /\
    store w' = update_first (id_matches (Some tok0)) (store idle_world) /\
    find_one_in tok0 (store w') = Some (set_expired idle_doc) /\
    calls w' = calls idle_world ++ [FindOne tok0; Update].
Proof.
  split; [reflexivity|]. split; [reflexivity|]. split; [reflexivity|].
  split; [vm_compute; reflexivity|].
  apply construct_idle; [reflexivity | reflexivity | reflexivity | vm_compute; reflexivity].
Defined.

Lemma load_keys_cons (d : doc) (k0 : string) (ks : list string) (m : gmap string pyval) :
  load_keys d (k0 :: ks) m =
    load_keys d ks (match doc_getitem d k0 with inr v => <[k0 := v]> m | inl _ => m end).
Proof. reflexivity. Qed.

Lemma load_keys_notin (d : doc) (ks : list string) (m : gmap string pyval) (k : string) :
  ~ In k ks -> load_keys d ks m !! k = m !! k.
Proof.
  revert m. induction ks as [|k0 ks IH]; intros m Hk; [reflexivity|].
  rewrite load_keys_cons, IH by (intros Hin; apply Hk; right; exact Hin).
  destruct (doc_getitem d k0); [reflexivity|].
  apply lookup_insert_ne. intros ->. apply Hk. left. reflexivity.
Qed.

Lemma load_keys_in (d : doc) (ks : list string) (m : gmap string pyval) (k : string) (x : pyval) :
  doc_getitem d k = inr x -> In k ks -> load_keys d ks m !! k = Some x.
Proof.
  intros Hx. revert m. induction ks as [|k0 ks IH]; intros m Hk; [destruct Hk|].
  rewrite load_keys_cons.
  destruct (in_dec string_dec k ks) as [Hin | Hout].
  - apply IH. exact Hin.
  - destruct Hk as [-> | Hin]; [|contradiction].
    rewrite load_keys_notin by exact Hout. rewrite Hx. apply lookup_insert_eq.
Qed.

Lemma for_each_load_ok (d : doc) (ks : list string) (e : session) (w : world) :
  (forall k, In k ks -> exists x, doc_getitem d k = inr x) ->
  exists b, for_each ks (load_body d) (e, w) =
    (inr tt, (mk_session (id e) (load_keys d ks (mapping e)) b (expired e)
                (last_update e) (session_id e), w)).
Proof.
  revert e. induction ks as [|k ks IH]; intros e Hok.
  - exists (modified e). destruct e. reflexivity.
  - destruct (Hok k (or_introl eq_refl)) as [x Hx].
    destruct (IH (set_mapping (<[k:=x]> (mapping e)) (set_modified true e)))
      as [b Hb]; [intros k' Hk'; apply Hok; right; exact Hk'|].
    exists b. simpl. unfold bind at 1, load_body at 1. rewrite Hx.
    cbn [setitem bind modify_self fst snd].
    change (mapping (set_modified true e)) with (mapping e).
    rewrite Hb. unfold load_keys. simpl. rewrite ?Hx. reflexivity.
Qed.

Lemma for_each_load_fail (d : doc) (ks : list string) (k : string) (s : session * world) :
  In k ks -> (exists x, doc_getitem d k = inl x) ->
  exists x s', for_each ks (load_body d) s = (inl x, s').
Proof.
  revert s. induction ks as [|k0 ks IH]; intros s Hk [x Hx]; [destruct Hk|].
  simpl. unfold bind at 1, load_body at 1.
  destruct (doc_getitem d k0) as [x0|v0] eqn:Hk0.
  - exists x0, s. reflexivity.
  - destruct Hk as [-> | Hin]; [congruence|].
    destruct (setitem k0 v0 s) as [[y|[]] s1] eqn:Hs.
    + unfold setitem, bind, modify_self in Hs. discriminate.
    + apply IH; [exact Hin | exists x; exact Hx].
Qed.

Lemma in_keys (m : gmap string pyval) (k : string) :
  In k (map fst (map_to_list m)) <-> exists v, m !! k = Some v.
Proof.
  rewrite in_map_iff. split.
  - intros [[k' v] [Hk Hin]]. simpl in Hk. subst k'. exists v.
    apply elem_of_map_to_list. apply list_elem_of_In. exact Hin.
  - intros [v Hv]. exists (k, v). split; [reflexivity|].
    apply list_elem_of_In. apply elem_of_map_to_list. exact Hv.
Qed.

(** An unexpired document idle for at most the timeout (exactly the
    timeout included) is loaded, provided every key of its [data] is also
    a top-level field of the document: the entity keeps the presented id,
    is neither modified nor expired, takes the document's [last_update],
    and maps each key [k] of [data] to [doc[k]], the top-level field, not
    [doc['data'][k]]. The store is not written. *)
Theorem construct_loads (urandom : nat -> nat -> Byte.byte) (timeout : Z)
    (t : string) (w : world) (d : doc) :
  Token.valid_token t = true -> find_one_in t (store w) = Some d ->
  doc_expired d = Some false -> clock w - doc_last_update d <= timeout ->
  (forall k v, doc_data d !! k = Some v -> exists x, doc_getitem d k = inr x) ->
  exists e, construct urandom timeout (Some t) w = (inr e, log_call (FindOne t) w) /\
    id e = Some t /\ modified e = false /\ expired e = false /\
    last_update e = Some (doc_last_update d) /\
    forall k, mapping e !! k = loaded_value d k.
Proof.
  intros Hv Hf He Hage Hok. enter_doc.
  unfold doc_getitem at 1. simpl. rewrite He. cbn [truthy].
  unfold now. cbn [bind get_world ret fst snd clock log_call].
  destruct (Z.gtb_spec (clock w - doc_last_update d) timeout); [lia|].
  unfold bind at 1.
  change (fun k : string => match doc_getitem d k with inl x => raise x | inr v => setitem k v end)
    with (load_body d).
  destruct (for_each_load_ok d (map fst (map_to_list (doc_data d)))
    (set_last_update (Some (doc_last_update d))
       (set_id (Some t) (set_expired_flag false (set_modified false blank))))
    (log_call (FindOne t) w)) as [b Hb].
  { intros k Hk. apply in_keys in Hk. destruct Hk as [v Hk]. exact (Hok k v Hk). }
  rewrite Hb. cbn.
  eexists. split; [reflexivity|]. cbn. repeat split.
  intros k. unfold loaded_value.
  destruct (doc_data d !! k) as [v|] eqn:Hk.
  - destruct (Hok k v Hk) as [x Hx]. rewrite Hx.
    apply load_keys_in; [exact Hx|]. apply in_keys. exists v. exact Hk.
  - rewrite load_keys_notin; [reflexivity|].
    rewrite in_keys. intros [v Hkv]. congruence.
Qed.

Lemma construct_loads_witness :
  Token.valid_token tok0 = true /\
  find_one_in tok0 (store (mk_world [odd_doc] 1000 1 [])) = Some odd_doc /\
  doc_expired odd_doc = Some false /\
  clock (mk_world [odd_doc] 1000 1 []) - doc_last_update odd_doc <= 600 /\
  (forall k v, doc_data odd_doc !! k = Some v -> exists x, doc_getitem odd_doc k = inr x) /\
  exists e, construct ur 600 (Some tok0) (mk_world [odd_doc] 1000 1 []) =
      (inr e, log_call (FindOne tok0) (mk_world [odd_doc] 1000 1 [])) /\
    id e = Some tok0 /\ modified e = false /\ expired e = false /\
    last_update e = Some (doc_last_update odd_doc) /\
    forall k, mapping e !! k = loaded_value odd_doc k.
Proof.
  assert (Hok : forall k v, doc_data odd_doc !! k = Some v ->
                  exists x, doc_getitem odd_doc k = inr x).
  { intros k v Hk. simpl in Hk.
    destruct (String.eqb_spec k "_id") as [-> | Hne].
    - exists (POid 0). reflexivity.
    - rewrite lookup_singleton_ne in Hk by congruence. discriminate. }
  split; [reflexivity|]. split; [reflexivity|]. split; [reflexivity|].
  split; [vm_compute; discriminate|]. split; [exact Hok|].
  apply construct_loads; [reflexivity | reflexivity | reflexivity | vm_compute; discriminate | exact Hok].
Defined.

(** An unexpired document within the timeout whose [data] has a key that
    is not a top-level field of the document (any ordinary key, such as
    ["user"]) cannot be loaded: [__init__] raises [KeyError]. *)
Theorem construct_load_raises (urandom : nat -> nat -> Byte.byte) (timeout : Z)
    (t : string) (w : world) (d : doc) (k : string) (v : pyval) :
  Token.valid_token t = true -> find_one_in t (store w) = Some d ->
  doc_expired d = Some false -> clock w - doc_last_update d <= timeout ->
  doc_data d !! k = Some v -> doc_getitem d k = inl (KeyError k) ->
  exists k' w', construct urandom timeout (Some t) w = (inl (KeyError k'), w').
Proof.
  intros Hv Hf He Hage Hk Hbad. enter_doc.
  unfold doc_getitem at 1. simpl. rewrite He. cbn [truthy].
  unfold now. cbn [bind get_world ret fst snd clock log_call].
  destruct (Z.gtb_spec (clock w - doc_last_update d) timeout); [lia|].
  unfold bind at 1.
  change (fun k : string => match doc_getitem d k with inl x => raise x | inr v => setitem k v end)
    with (load_body d).
  destruct (for_each_load_fail d (map fst (map_to_list (doc_data d))) k
    (set_last_update (Some (doc_last_update d))
       (set_id (Some t) (set_expired_flag false (set_modified false blank))),
     log_call (FindOne t) w)) as [[k'] [[e' w'] Hx]].
  - apply in_keys. exists v. exact Hk.
  - exists (KeyError k). exact Hbad.
  - rewrite Hx. exists k', w'. reflexivity.
Qed.

Lemma construct_load_raises_witness :
  Token.valid_token tok0 = true /\
  find_one_in tok0 (store (mk_world [mk_doc 0 950 tok0 {[ "user" := PInt 5 ]} (Some false)] 1000 1 [])) =
    Some (mk_doc 0 950 tok0 {[ "user" := PInt 5 ]} (Some false)) /\
  exists k' w', construct ur 600 (Some tok0)
      (mk_world [mk_doc 0 950 tok0 {[ "user" := PInt 5 ]} (Some false)] 1000 1 []) =
    (inl (KeyError k'), w').
Proof.
  split; [reflexivity|]. split; [reflexivity|].
  apply (construct_load_raises ur 600 tok0 _ (mk_doc 0 950 tok0 {[ "user" := PInt 5 ]} (Some false))
           "user" (PInt 5)); try reflexivity.
  vm_compute. discriminate.
Defined.

(* ------------------------------------------------------------------ *)
(** ** Compositions and the request hooks *)

(** [expire_set(P)] followed by [save]: the save is skipped whatever [P]
    matched, so the store only sees the update. *)
Theorem expire_set_then_save (P : doc -> bool) (e : session) (w : world) :
  let '(r, (e', w')) := (expire_set P ;;; save) (e, w) in
  r = inr tt /\ expired e' = true /\ store w' = update_first P (store w) /\
  calls w' = calls w ++ [Update].
Proof. simpl. repeat split. Qed.

(** [rotate] followed by [save]: the first document of the old id is
    marked expired and the mapping is then stored in a new document under
    that same old id. *)
Theorem rotate_then_save (urandom : nat -> nat -> Byte.byte) (e : session) (w : world) :
  let '(r, (e', w')) := (rotate urandom ;;; save) (e, w) in
  r = inr tt /\ id e' = id e /\
  store w' = update_first (id_matches (id e)) (store w) ++
               [saved_doc (update_first (id_matches (id e)) (store w)) (clock w) e].
Proof. simpl. repeat split. Qed.

(** [on_response] always issues the cookie, HTTP-only and overwriting,
    with the configured name, path, domain and secure flag and the
    entity's id as value, also when the entity is expired and [save]
    wrote nothing; otherwise [save] appends the entity's document. *)
Theorem on_response_cookie (cfg : config) (e : session) (w : world) :
  let '(r, (e', w')) := on_response cfg (e, w) in
  r = inr (mk_cookie (cfg_name cfg) (id e) (cfg_path cfg) (cfg_domain cfg)
             (cfg_secure_only cfg) true true) /\
  store w' = (if expired e then store w else store w ++ [saved_doc (store w) (clock w) e]).
Proof.
  unfold on_response, save, bind, get_self, modify_self, ret. simpl.
  destruct (expired e); simpl; repeat split.
Qed.

(** A request without the session cookie whose view leaves the session
    alone still stores a document for it: an empty mapping under a fresh
    id, and the response cookie carries that id. *)
Theorem request_without_cookie (urandom : nat -> nat -> Byte.byte) (cfg : config)
    (cookies : gmap string string) (w : world) :
  cookies !! cfg_name cfg = None ->
  request_cycle urandom cfg cookies (ret tt) w =
    (inr (mk_cookie (cfg_name cfg) (Some (Token.create_token_from urandom (draws w)))
            (cfg_path cfg) (cfg_domain cfg) (cfg_secure_only cfg) true true),
     mk_world (store w ++ [mk_doc (Z.of_nat (length (store w))) (clock w)
                             (Token.create_token_from urandom (draws w)) ∅ None])
              (clock w) (S (draws w))
              (calls w ++ [Insert (Token.create_token_from urandom (draws w))])).
Proof.
  intros Hc. unfold request_cycle, on_request. rewrite Hc, construct_none. reflexivity.
Qed.

Lemma request_without_cookie_witness :
  (∅ : gmap string string) !! cfg_name app_cfg = None /\
  request_cycle ur app_cfg ∅ (ret tt) w0 =
    (inr (mk_cookie "session" (Some tok0) (PStr "/") (PStr "localhost") (PBool false) true true),
     mk_world [mk_doc 0 1000 tok0 ∅ None] 1000 1 [Insert tok0]).
Proof.
  split; [reflexivity|].
  rewrite (request_without_cookie ur app_cfg ∅ w0) by reflexivity. reflexivity.
Defined.
